(** * Heap spaces of the runtime (space.h)

    A shallow embedding of the classes [Space], [AllocSpace] and
    [ImageSpace] declared in [src/space.h], with the properties of the
    accessors and state transitions that the header defines inline, and
    of the methods it only declares, as the specification describes them.

    Conventions.
    - A [byte*] (and any other pointer) is its address, an integer in
      [0, 2^kBitsPerPointer); a result that may be [NULL] is an [option].
    - A [size_t] is an integer in the same interval; arithmetic that lands
      in a [size_t] is reduced with [to_size_t].
    - An object is a record of its fields; a method takes the object and
      returns the result and, when it mutates, the new object.
    - The class hierarchy is the sum [SpaceObj]; a virtual call is a
      [match] on the dynamic type. *)

From Stdlib Require Import ZArith Lia Bool String.
From stdpp Require Import base gmap.

Local Open Scope Z_scope.

(** ** Machine integers *)

(** Width of a pointer and of [size_t] in bits (globals.h fixes it per
    target; the properties below hold for each width). *)
Class PointerWidth := kBitsPerPointer : nat.

Definition size_t_modulus `{PointerWidth} : Z := 2 ^ Z.of_nat kBitsPerPointer.

(** Conversion of an integer result to [size_t]: reduction modulo [2^w]. *)
Definition to_size_t `{PointerWidth} (z : Z) : Z := z mod size_t_modulus.

(** A value that fits a pointer or a [size_t]. *)
Definition is_word `{PointerWidth} (z : Z) : Prop := 0 <= z < size_t_modulus.

(** ** enum GcRetentionPolicy *)

Inductive GcRetentionPolicy : Set :=
| GCRP_NEVER_COLLECT
| GCRP_ALWAYS_COLLECT
| GCRP_FULL_COLLECT.

#[global] Instance GcRetentionPolicy_eq_dec : EqDecision GcRetentionPolicy.
Proof. solve_decision. Defined.

(** ** MemMap *)

Module MemMap.

(** Modelled from the spec: the class MemMap of mem_map.h, which is not
    among the sources.  The spec calls it the VirtualRegion: "an OS-backed
    contiguous reserved byte range" that "can be queried for its bounds"
    ([region.begin()], [region.end()], [region.capacity()]).  The header
    only ever asks a map for [Begin()], [End()] and [Size()], so a map is
    the triple of those answers. *)
Record t : Type := mk {
  Begin : Z;
  End : Z;
  Size : Z
}.

End MemMap.

(** ** class Space *)

Module Space.

(** The data members of the base class.  [mem_map_] is a
    [UniquePtr<MemMap>]: the space owns its map, so the map is stored in
    place. *)
Record t : Type := mk {
  name_ : string;
  mem_map_ : MemMap.t;
  begin_ : Z;
  end_ : Z;
  gc_retention_policy_ : GcRetentionPolicy
}.

Definition GetSpaceName (s : t) : string := name_ s.

Definition Begin (s : t) : Z := begin_ s.

Definition End (s : t) : Z := end_ s.

(** [bool Contains(const Object* obj)]: the cast to [const byte*] keeps the
    address. *)
Definition Contains (s : t) (obj : Z) : bool :=
  let byte_ptr := obj in
  (Begin s <=? byte_ptr) && (byte_ptr <? End s).

(** [size_t Size()]: the pointer difference, returned as a [size_t]. *)
Definition Size `{PointerWidth} (s : t) : Z := to_size_t (End s - Begin s).

(** The base implementation of the virtual [Capacity()]. *)
Definition Capacity (s : t) : Z := MemMap.Size (mem_map_ s).

Definition GetGcRetentionPolicy (s : t) : GcRetentionPolicy :=
  gc_retention_policy_ s.

Definition SetGcRetentionPolicy (gc_retention_policy : GcRetentionPolicy)
    (s : t) : t :=
  {| name_ := name_ s;
     mem_map_ := mem_map_ s;
     begin_ := begin_ s;
     end_ := end_ s;
     gc_retention_policy_ := gc_retention_policy |}.

Definition GetName (s : t) : string := name_ s.

(** A write to the only mutable address field, [end_] ([begin_] is
    [byte* const]). *)
Definition set_end (e : Z) (s : t) : t :=
  {| name_ := name_ s;
     mem_map_ := mem_map_ s;
     begin_ := begin_ s;
     end_ := e;
     gc_retention_policy_ := gc_retention_policy_ s |}.

(** The invariant of the data model: both bounds are addresses and the
    space is not inverted. *)
Definition bounds_ok `{PointerWidth} (s : t) : Prop :=
  is_word (begin_ s) /\ is_word (end_ s) /\ begin_ s <= end_ s.

End Space.

(** ** The embedded allocator *)

Module Mspace.

(** Modelled from the spec: the allocator behind [mspace_] (dlmalloc.h is
    not among the sources), "treated as a black box exposing
    allocate/free/resize-limit/walk operations".  [footprint] is the number
    of bytes the allocator has obtained from the region; [footprint_limit]
    is "what the allocator is currently permitted to request from the
    region"; [demand m n] is the footprint the allocator would need to
    serve a request of [n] bytes from state [m] (its free-list policy
    decides it, and stays opaque). *)
Class Ops (M : Type) : Type := {
  footprint : M -> Z;
  footprint_limit : M -> Z;
  set_footprint_limit : M -> Z -> M;
  demand : M -> Z -> Z;
  malloc : M -> Z -> option Z * M
}.

(** Modelled from the spec: what the black box promises.  Resizing the
    limit changes the limit and not what a request needs; a request
    keeps the limit; "if the allocator's current footprint limit would be
    exceeded, no growth is permitted and the call returns a null result",
    and that is the only cause of a null result ("allocation exhaustion");
    a served request leaves the footprint at what it demanded. *)
Record Laws (M : Type) `{Ops M} : Prop := {
  limit_after_set : forall m l, footprint_limit (set_footprint_limit m l) = l;
  demand_after_set : forall m l n, demand (set_footprint_limit m l) n = demand m n;
  limit_after_malloc : forall m n, footprint_limit (snd (malloc m n)) = footprint_limit m;
  malloc_null : forall m n,
    fst (malloc m n) = None <-> footprint_limit m < demand m n;
  malloc_null_no_growth : forall m n,
    fst (malloc m n) = None -> footprint (snd (malloc m n)) = footprint m;
  malloc_footprint : forall m n,
    fst (malloc m n) <> None -> footprint (snd (malloc m n)) = demand m n
}.

(** The simplest allocator that fits the interface: it hands out the
    region front to back and never reuses storage. *)
Record bump : Type := mk_bump {
  bump_base : Z;
  bump_used : Z;
  bump_limit : Z
}.

#[global] Instance bump_ops : Ops bump := {|
  footprint m := bump_used m;
  footprint_limit m := bump_limit m;
  set_footprint_limit m l := mk_bump (bump_base m) (bump_used m) l;
  demand m n := bump_used m + n;
  malloc m n :=
    if bump_used m + n <=? bump_limit m
    then (Some (bump_base m + bump_used m),
          mk_bump (bump_base m) (bump_used m + n) (bump_limit m))
    else (None, m)
|}.

End Mspace.

(** ** class AllocSpace : public Space *)

Module AllocSpace.

(** The base-class subobject and the members the class adds.  The two
    [UniquePtr<SpaceBitmap>] members are held as the addresses [get()]
    returns; [mspace_] is the handle of the embedded allocator.  The mutex
    [lock_] and the static [bitmap_index_] play no part in the inline
    methods. *)
Record t : Type := mk {
  super : Space.t;
  live_bitmap_ : Z;
  mark_bitmap_ : Z;
  mspace_ : Z;
  growth_limit_ : Z
}.

Definition GetMspace (s : t) : Z := mspace_ s.

(** [virtual size_t Capacity()]: the possibly limited capacity. *)
Definition Capacity (s : t) : Z := growth_limit_ s.

(** [virtual size_t NonGrowthLimitCapacity()]:
    [mem_map_->End() - mem_map_->Begin()] as a [size_t]. *)
Definition NonGrowthLimitCapacity `{PointerWidth} (s : t) : Z :=
  to_size_t (MemMap.End (Space.mem_map_ (super s))
             - MemMap.Begin (Space.mem_map_ (super s))).

(** [void ClearGrowthLimit()]. *)
Definition ClearGrowthLimit `{PointerWidth} (s : t) : t :=
  {| super := super s;
     live_bitmap_ := live_bitmap_ s;
     mark_bitmap_ := mark_bitmap_ s;
     mspace_ := mspace_ s;
     growth_limit_ := NonGrowthLimitCapacity s |}.

Definition IsAllocSpace (s : t) : bool :=
  negb (bool_decide (Space.gc_retention_policy_ (super s) = GCRP_NEVER_COLLECT)).

Definition IsImageSpace (s : t) : bool := false.

Definition IsZygoteSpace (s : t) : bool :=
  bool_decide (Space.gc_retention_policy_ (super s) = GCRP_FULL_COLLECT).

Definition GetLiveBitmap (s : t) : Z := live_bitmap_ s.

Definition GetMarkBitmap (s : t) : Z := mark_bitmap_ s.

(** The inherited [SetGcRetentionPolicy], acting on the base subobject. *)
Definition SetGcRetentionPolicy (p : GcRetentionPolicy) (s : t) : t :=
  {| super := Space.SetGcRetentionPolicy p (super s);
     live_bitmap_ := live_bitmap_ s;
     mark_bitmap_ := mark_bitmap_ s;
     mspace_ := mspace_ s;
     growth_limit_ := growth_limit_ s |}.

(** Replacement of the base subobject (used by the methods that move
    [end_] or change the policy). *)
Definition with_super (b : Space.t) (s : t) : t :=
  {| super := b;
     live_bitmap_ := live_bitmap_ s;
     mark_bitmap_ := mark_bitmap_ s;
     mspace_ := mspace_ s;
     growth_limit_ := growth_limit_ s |}.

(** *** Methods whose bodies are outside the header *)

(** Modelled from the spec: [SwapBitmaps] (declared in the header, defined
    in space.cc, which is not among the sources) "exchanges which bitmap
    object is exposed as live versus mark for this space ... does not touch
    bitmap contents".  The contents of the bitmap objects live in a store
    keyed by the object's address; a [SpaceBitmap] is the set of addresses
    it marks ("a sparse boolean index over an address range"). *)
Definition SwapBitmaps (s : t) (bitmaps : gmap Z (gset Z)) : t * gmap Z (gset Z) :=
  let temp_live_bitmap := live_bitmap_ s in
  ({| super := super s;
      live_bitmap_ := mark_bitmap_ s;
      mark_bitmap_ := temp_live_bitmap;
      mspace_ := mspace_ s;
      growth_limit_ := growth_limit_ s |},
   bitmaps).

Section Allocation.
Context {M : Type} `{Mspace.Ops M}.

(** Modelled from the spec: [MoreCore] (defined in space.cc), the callback
    through which "the region may extend [end_] forward as the allocator
    consumes more of the reservation".  Returns the previous end. *)
Definition MoreCore (increment : Z) (s : t) : Z * t :=
  let original_end := Space.end_ (super s) in
  (original_end, with_super (Space.set_end (original_end + increment) (super s)) s).

(** Modelled from the spec: [AllocWithoutGrowth] (defined in space.cc)
    "delegates to the embedded allocator; if the allocator's current
    footprint limit would be exceeded, no growth is permitted and the call
    returns a null result".  [m] is the state of the allocator behind
    [mspace_]; what the allocator obtained from the region moves [end_]. *)
Definition AllocWithoutGrowth (num_bytes : Z) (s : t) (m : M) : option Z * t * M :=
  let '(result, m') := Mspace.malloc m num_bytes in
  let '(_, s') := MoreCore (Mspace.footprint m' - Mspace.footprint m) s in
  (result, s', m').

(** Modelled from the spec: [AllocWithGrowth] (defined in space.cc) "raises
    the allocator's footprint limit up to [growthLimit] (never beyond it)
    before delegating". *)
Definition AllocWithGrowth (num_bytes : Z) (s : t) (m : M) : option Z * t * M :=
  let max_allowed := Capacity s in
  AllocWithoutGrowth num_bytes s (Mspace.set_footprint_limit m max_allowed).

End Allocation.

(** The parts of the space created by a zygote split on which the spec is
    silent: its name, the bitmaps and allocator it gets and its growth
    limit. *)
Record fresh_parts : Type := mk_fresh {
  fresh_name : string;
  fresh_live_bitmap : Z;
  fresh_mark_bitmap : Z;
  fresh_mspace : Z;
  fresh_growth_limit : Z
}.

(** Modelled from the spec: [CreateZygoteSpace] (declared in the header,
    defined in space.cc).  "The calling space retains [[begin, end)] as-is
    but its retention policy becomes FullCollectOnly ...  A new
    AllocationSpace is constructed over the unused tail of the same
    reservation, [[end, NonGrowthLimitCapacity())], with retention policy
    AlwaysCollect"; the new space has "Begin = E, End = E".  The result is
    the calling space after the call and the returned space. *)
Definition CreateZygoteSpace `{PointerWidth} (parts : fresh_parts) (s : t) : t * t :=
  let E := Space.End (super s) in
  let reservation := Space.mem_map_ (super s) in
  let tail :=
    {| MemMap.Begin := E;
       MemMap.End := MemMap.End reservation;
       MemMap.Size := to_size_t (MemMap.End reservation - E) |} in
  let alloc_space :=
    {| super :=
         {| Space.name_ := fresh_name parts;
            Space.mem_map_ := tail;
            Space.begin_ := E;
            Space.end_ := E;
            Space.gc_retention_policy_ := GCRP_ALWAYS_COLLECT |};
       live_bitmap_ := fresh_live_bitmap parts;
       mark_bitmap_ := fresh_mark_bitmap parts;
       mspace_ := fresh_mspace parts;
       growth_limit_ := fresh_growth_limit parts |} in
  (SetGcRetentionPolicy GCRP_FULL_COLLECT s, alloc_space).

(** The reservation of a constructed alloc space: [begin_] "always equals
    mem_map_->GetAddress()", and [begin <= end <= region.end] within the
    address space. *)
Definition reservation_ok `{PointerWidth} (s : t) : Prop :=
  Space.begin_ (super s) = MemMap.Begin (Space.mem_map_ (super s))
  /\ 0 <= Space.begin_ (super s)
  /\ Space.begin_ (super s) <= Space.end_ (super s)
  /\ Space.end_ (super s) <= MemMap.End (Space.mem_map_ (super s))
  /\ MemMap.End (Space.mem_map_ (super s)) < size_t_modulus.

End AllocSpace.

(** ** class ImageSpace : public Space *)

Module ImageSpace.

Record t : Type := mk {
  super : Space.t;
  live_bitmap_ : Z
}.

Definition GetImageFilename (s : t) : string := Space.name_ (super s).

Definition IsAllocSpace (s : t) : bool := false.

Definition IsImageSpace (s : t) : bool := true.

Definition IsZygoteSpace (s : t) : bool := false.

Definition GetLiveBitmap (s : t) : Z := live_bitmap_ s.

(** "ImageSpaces have the same bitmap for both live and marked." *)
Definition GetMarkBitmap (s : t) : Z := live_bitmap_ s.

Definition SetGcRetentionPolicy (p : GcRetentionPolicy) (s : t) : t :=
  {| super := Space.SetGcRetentionPolicy p (super s);
     live_bitmap_ := live_bitmap_ s |}.

Definition with_super (b : Space.t) (s : t) : t :=
  {| super := b; live_bitmap_ := live_bitmap_ s |}.

End ImageSpace.

(** ** A [Space*] and its virtual calls *)

(** The dynamic type of an object reached through a [Space*]: [Space]
    itself is abstract, so it is one of the two concrete classes. *)
Inductive SpaceObj : Type :=
| OfAllocSpace (a : AllocSpace.t)
| OfImageSpace (i : ImageSpace.t).

Definition base (s : SpaceObj) : Space.t :=
  match s with
  | OfAllocSpace a => AllocSpace.super a
  | OfImageSpace i => ImageSpace.super i
  end.

(** The non-virtual members of [Space], called on either kind. *)
Definition Begin (s : SpaceObj) : Z := Space.Begin (base s).
Definition End (s : SpaceObj) : Z := Space.End (base s).
Definition Contains (s : SpaceObj) (obj : Z) : bool := Space.Contains (base s) obj.
Definition Size `{PointerWidth} (s : SpaceObj) : Z := Space.Size (base s).
Definition GetGcRetentionPolicy (s : SpaceObj) : GcRetentionPolicy :=
  Space.GetGcRetentionPolicy (base s).

Definition SetGcRetentionPolicy (p : GcRetentionPolicy) (s : SpaceObj) : SpaceObj :=
  match s with
  | OfAllocSpace a => OfAllocSpace (AllocSpace.SetGcRetentionPolicy p a)
  | OfImageSpace i => OfImageSpace (ImageSpace.SetGcRetentionPolicy p i)
  end.

(** A store to [end_] of either kind of space. *)
Definition set_end (e : Z) (s : SpaceObj) : SpaceObj :=
  match s with
  | OfAllocSpace a =>
      OfAllocSpace (AllocSpace.with_super (Space.set_end e (AllocSpace.super a)) a)
  | OfImageSpace i =>
      OfImageSpace (ImageSpace.with_super (Space.set_end e (ImageSpace.super i)) i)
  end.

(** The virtual members. *)
Definition Capacity (s : SpaceObj) : Z :=
  match s with
  | OfAllocSpace a => AllocSpace.Capacity a
  | OfImageSpace i => Space.Capacity (ImageSpace.super i)
  end.

(** [Space::NonGrowthLimitCapacity] is [return Capacity();], a virtual call
    on the same object; [AllocSpace] overrides it. *)
Definition NonGrowthLimitCapacity `{PointerWidth} (s : SpaceObj) : Z :=
  match s with
  | OfAllocSpace a => AllocSpace.NonGrowthLimitCapacity a
  | OfImageSpace _ => Capacity s
  end.

Definition IsAllocSpace (s : SpaceObj) : bool :=
  match s with
  | OfAllocSpace a => AllocSpace.IsAllocSpace a
  | OfImageSpace i => ImageSpace.IsAllocSpace i
  end.

Definition IsImageSpace (s : SpaceObj) : bool :=
  match s with
  | OfAllocSpace a => AllocSpace.IsImageSpace a
  | OfImageSpace i => ImageSpace.IsImageSpace i
  end.

Definition IsZygoteSpace (s : SpaceObj) : bool :=
  match s with
  | OfAllocSpace a => AllocSpace.IsZygoteSpace a
  | OfImageSpace i => ImageSpace.IsZygoteSpace i
  end.

Definition GetLiveBitmap (s : SpaceObj) : Z :=
  match s with
  | OfAllocSpace a => AllocSpace.GetLiveBitmap a
  | OfImageSpace i => ImageSpace.GetLiveBitmap i
  end.

Definition GetMarkBitmap (s : SpaceObj) : Z :=
  match s with
  | OfAllocSpace a => AllocSpace.GetMarkBitmap a
  | OfImageSpace i => ImageSpace.GetMarkBitmap i
  end.

Coercion OfAllocSpace : AllocSpace.t >-> SpaceObj.
Coercion OfImageSpace : ImageSpace.t >-> SpaceObj.

(** ** Checked down-casts *)

(** What a member that goes through [DCHECK] and [down_cast] does: it
    returns the object as the derived class, or stops at the failed check,
    or casts an object of the other class (which the language leaves
    undefined). *)
Inductive cast_result (A : Type) : Type :=
| Returned (a : A)
| CheckFailed
| BadCast.

Arguments Returned {A} a.
Arguments CheckFailed {A}.
Arguments BadCast {A}.

(** [ImageSpace* AsImageSpace()].  [DCHECK] (logging.h, not among the
    sources) tests its condition only in builds that enable it, so the
    switch is the parameter [kEnableDChecks]; [down_cast] is a static
    cast. *)
Definition AsImageSpace (kEnableDChecks : bool) (s : SpaceObj) : cast_result ImageSpace.t :=
  if kEnableDChecks && negb (IsImageSpace s) then CheckFailed
  else match s with
       | OfImageSpace i => Returned i
       | OfAllocSpace _ => BadCast
       end.

(** [AllocSpace* AsAllocSpace()]. *)
Definition AsAllocSpace (kEnableDChecks : bool) (s : SpaceObj) : cast_result AllocSpace.t :=
  if kEnableDChecks && negb (IsAllocSpace s) then CheckFailed
  else match s with
       | OfAllocSpace a => Returned a
       | OfImageSpace _ => BadCast
       end.

(** ** Sample objects *)

(** A 32-bit target. *)
Definition pointer_width_32 : PointerWidth := 32%nat.

(** A 64 MiB reservation at 0x10000000. *)
Definition sample_map : MemMap.t :=
  {| MemMap.Begin := 268435456; MemMap.End := 335544320; MemMap.Size := 67108864 |}.

(** An alloc space over [sample_map]: 4 MiB in use, growth limit 16 MiB. *)
Definition sample_alloc_space : AllocSpace.t :=
  {| AllocSpace.super :=
       {| Space.name_ := "alloc space";
          Space.mem_map_ := sample_map;
          Space.begin_ := 268435456;
          Space.end_ := 272629760;
          Space.gc_retention_policy_ := GCRP_ALWAYS_COLLECT |};
     AllocSpace.live_bitmap_ := 4096;
     AllocSpace.mark_bitmap_ := 8192;
     AllocSpace.mspace_ := 268435456;
     AllocSpace.growth_limit_ := 16777216 |}.

(** An image space of 1 MiB at 0x08000000. *)
Definition sample_image_space : ImageSpace.t :=
  {| ImageSpace.super :=
       {| Space.name_ := "boot.art";
          Space.mem_map_ :=
            {| MemMap.Begin := 134217728; MemMap.End := 135266304; MemMap.Size := 1048576 |};
          Space.begin_ := 134217728;
          Space.end_ := 135266304;
          Space.gc_retention_policy_ := GCRP_NEVER_COLLECT |};
     ImageSpace.live_bitmap_ := 12288 |}.

Definition sample_fresh_parts : AllocSpace.fresh_parts :=
  {| AllocSpace.fresh_name := "alloc space";
     AllocSpace.fresh_live_bitmap := 16384;
     AllocSpace.fresh_mark_bitmap := 20480;
     AllocSpace.fresh_mspace := 272629760;
     AllocSpace.fresh_growth_limit := 12582912 |}.

(** A bump allocator that has used the first 4 MiB and may use no more. *)
Definition sample_mspace : Mspace.bump :=
  {| Mspace.bump_base := 268435456; Mspace.bump_used := 4194304; Mspace.bump_limit := 4194304 |}.

(** The sample alloc space taken out of collection. *)
Definition sample_never_collected : AllocSpace.t :=
  AllocSpace.SetGcRetentionPolicy GCRP_NEVER_COLLECT sample_alloc_space.

(** An alloc space in which nothing has been allocated yet, laid out
    behind the 4 MiB of [sample_alloc_space]. *)
Definition sample_empty_space : AllocSpace.t :=
  {| AllocSpace.super :=
       {| Space.name_ := "alloc space";
          Space.mem_map_ :=
            {| MemMap.Begin := 272629760; MemMap.End := 335544320; MemMap.Size := 62914560 |};
          Space.begin_ := 272629760;
          Space.end_ := 272629760;
          Space.gc_retention_policy_ := GCRP_ALWAYS_COLLECT |};
     AllocSpace.live_bitmap_ := 16384;
     AllocSpace.mark_bitmap_ := 20480;
     AllocSpace.mspace_ := 272629760;
     AllocSpace.growth_limit_ := 12582912 |}.

(** * Properties *)

(** ** Arithmetic of [size_t] *)

Section SizeT.
Context `{PointerWidth}.

Lemma size_t_modulus_pos : 0 < size_t_modulus.
Proof. unfold size_t_modulus. apply Z.pow_pos_nonneg; lia. Qed.

Lemma to_size_t_word z : is_word z -> to_size_t z = z.
Proof. unfold is_word, to_size_t. intros Hz. apply Z.mod_small. exact Hz. Qed.

Lemma to_size_t_is_word z : is_word (to_size_t z).
Proof. unfold is_word, to_size_t. apply Z.mod_pos_bound, size_t_modulus_pos. Qed.

Lemma to_size_t_idem z : to_size_t (to_size_t z) = to_size_t z.
Proof. unfold to_size_t. apply Z.mod_mod. pose proof size_t_modulus_pos. lia. Qed.

(** The difference of two addresses in ascending order fits a [size_t]. *)
Lemma to_size_t_diff lo hi :
  0 <= lo -> lo <= hi -> hi < size_t_modulus -> to_size_t (hi - lo) = hi - lo.
Proof. intros H0 H1 H2. apply to_size_t_word. unfold is_word. lia. Qed.

End SizeT.

(** ** Accessors of the base class *)

Lemma Contains_spec (s : Space.t) (addr : Z) :
  Space.Contains s addr = true <-> Space.Begin s <= addr < Space.End s.
Proof.
  unfold Space.Contains. cbv zeta.
  rewrite andb_true_iff, Z.leb_le, Z.ltb_lt. tauto.
Qed.

Lemma Size_unfold `{PointerWidth} (s : SpaceObj) :
  Size s = to_size_t (End s - Begin s).
Proof. reflexivity. Qed.

Lemma base_set_end (e : Z) (s : SpaceObj) :
  base (set_end e s) = Space.set_end e (base s).
Proof. destruct s; reflexivity. Qed.

(** C7: for a space of either kind and every address, [Contains] holds
    exactly when [Begin() <= addr < End()]; it is false at [End()]; and on
    a space whose bounds are in order ([begin <= end], the invariant of the
    data model) it is true at [Begin()] whenever [Begin() != End()]. *)
Theorem Contains_iff_between (s : SpaceObj) (addr : Z) :
  Begin s <= End s ->
  (Contains s addr = true <-> Begin s <= addr < End s)
  /\ Contains s (End s) = false
  /\ (Begin s <> End s -> Contains s (Begin s) = true).
Proof.
  intros Hle. unfold Contains, Begin, End in *.
  split; [apply Contains_spec|]. split.
  - apply not_true_iff_false. rewrite Contains_spec. lia.
  - intros Hne. apply Contains_spec. lia.
Qed.

Lemma Contains_iff_between_witness :
  (Begin sample_alloc_space <= End sample_alloc_space
   /\ Contains sample_alloc_space 268435456 = true
   /\ Contains sample_alloc_space 272629760 = false)
  /\ (Begin sample_image_space <= End sample_image_space
      /\ Contains sample_image_space 134217728 = true
      /\ Contains sample_image_space 135266304 = false).
Proof.
  assert (Ha : Begin sample_alloc_space <= End sample_alloc_space)
    by (vm_compute; discriminate).
  assert (Hi : Begin sample_image_space <= End sample_image_space)
    by (vm_compute; discriminate).
  split.
  - split; [exact Ha|].
    destruct (Contains_iff_between sample_alloc_space 0 Ha) as (_ & Hend & Hbegin).
    split; [apply Hbegin; discriminate | exact Hend].
  - split; [exact Hi|].
    destruct (Contains_iff_between sample_image_space 0 Hi) as (_ & Hend & Hbegin).
    split; [apply Hbegin; discriminate | exact Hend].
Defined.

(** C9: on a space of either kind whose bounds are in order, [Size()] is
    [End() - Begin()]; storing any later address within the address space
    into [end_] keeps [Begin()] and leaves [Size()] equal to the new
    [End() - Begin()]. *)
Theorem Size_is_End_minus_Begin `{PointerWidth} (s : SpaceObj) :
  Space.bounds_ok (base s) ->
  Size s = End s - Begin s
  /\ forall e, Begin s <= e -> e < size_t_modulus ->
       Begin (set_end e s) = Begin s
       /\ End (set_end e s) = e
       /\ Size (set_end e s) = End (set_end e s) - Begin (set_end e s).
Proof.
  intros ((Hb0 & Hb1) & (He0 & He1) & Hle).
  unfold Size, End, Begin, Space.Size, Space.End, Space.Begin.
  split.
  - apply to_size_t_diff; assumption.
  - intros e Hbe He. rewrite base_set_end. cbn.
    repeat split. apply to_size_t_diff; assumption.
Qed.

Lemma Size_is_End_minus_Begin_witness :
  Space.bounds_ok (H := pointer_width_32) (base sample_alloc_space)
  /\ Size (H := pointer_width_32) sample_alloc_space = 4194304
  /\ Size (H := pointer_width_32) (set_end 285212672 sample_alloc_space) = 16777216.
Proof.
  assert (Ha : Space.bounds_ok (H := pointer_width_32) (base sample_alloc_space))
    by (vm_compute; intuition discriminate).
  split; [exact Ha|].
  destruct (Size_is_End_minus_Begin (H := pointer_width_32) sample_alloc_space Ha)
    as (Hsize & Hgrow).
  split; [exact Hsize|].
  destruct (Hgrow 285212672) as (_ & _ & Hsize'); [vm_compute; discriminate | reflexivity |].
  exact Hsize'.
Defined.

(** ** Retention policy and the kind tests *)

Lemma IsAllocSpace_policy (s : AllocSpace.t) :
  AllocSpace.IsAllocSpace s = true
  <-> Space.GetGcRetentionPolicy (AllocSpace.super s) <> GCRP_NEVER_COLLECT.
Proof.
  unfold AllocSpace.IsAllocSpace, Space.GetGcRetentionPolicy.
  rewrite negb_true_iff, bool_decide_eq_false. reflexivity.
Qed.

Lemma IsZygoteSpace_policy (s : AllocSpace.t) :
  AllocSpace.IsZygoteSpace s = true
  <-> Space.GetGcRetentionPolicy (AllocSpace.super s) = GCRP_FULL_COLLECT.
Proof.
  unfold AllocSpace.IsZygoteSpace, Space.GetGcRetentionPolicy.
  apply bool_decide_eq_true.
Qed.

(** C5: after [SetGcRetentionPolicy(p)] on an alloc space, [IsAllocSpace()]
    is true exactly when [p] is not NeverCollect and [IsZygoteSpace()] is
    true exactly when [p] is FullCollectOnly; both answers are the same for
    any two alloc spaces that hold the same policy, whatever their other
    fields. *)
Theorem kind_tests_follow_policy (s : AllocSpace.t) (p : GcRetentionPolicy) :
  GetGcRetentionPolicy (SetGcRetentionPolicy p s) = p
  /\ (IsAllocSpace (SetGcRetentionPolicy p s) = true <-> p <> GCRP_NEVER_COLLECT)
  /\ (IsZygoteSpace (SetGcRetentionPolicy p s) = true <-> p = GCRP_FULL_COLLECT)
  /\ (forall s' : AllocSpace.t,
        IsAllocSpace (SetGcRetentionPolicy p s') = IsAllocSpace (SetGcRetentionPolicy p s)
        /\ IsZygoteSpace (SetGcRetentionPolicy p s') = IsZygoteSpace (SetGcRetentionPolicy p s)).
Proof.
  split; [reflexivity|]. split; [|split].
  - cbn. rewrite IsAllocSpace_policy. reflexivity.
  - cbn. rewrite IsZygoteSpace_policy. reflexivity.
  - intros s'. split; reflexivity.
Qed.

(** C6: an image space answers [IsImageSpace()] with true and
    [IsAllocSpace()], [IsZygoteSpace()] with false, and [GetMarkBitmap()]
    returns the pointer [GetLiveBitmap()] returns; the answers are the
    same after any change of policy or of [end_]. *)
Theorem ImageSpace_kind_and_bitmaps (i : ImageSpace.t) :
  (IsImageSpace i = true
   /\ IsAllocSpace i = false
   /\ IsZygoteSpace i = false
   /\ GetMarkBitmap i = GetLiveBitmap i)
  /\ (forall p,
        IsImageSpace (SetGcRetentionPolicy p i) = true
        /\ IsAllocSpace (SetGcRetentionPolicy p i) = false
        /\ IsZygoteSpace (SetGcRetentionPolicy p i) = false
        /\ GetMarkBitmap (SetGcRetentionPolicy p i) = GetLiveBitmap (SetGcRetentionPolicy p i))
  /\ (forall e,
        IsImageSpace (set_end e i) = true
        /\ IsAllocSpace (set_end e i) = false
        /\ IsZygoteSpace (set_end e i) = false
        /\ GetMarkBitmap (set_end e i) = GetLiveBitmap (set_end e i)).
Proof. repeat split. Qed.

(** ** The growth limit *)

Section GrowthLimit.
Context `{PointerWidth}.

Lemma NonGrowthLimitCapacity_ClearGrowthLimit (s : AllocSpace.t) :
  AllocSpace.NonGrowthLimitCapacity (AllocSpace.ClearGrowthLimit s)
  = AllocSpace.NonGrowthLimitCapacity s.
Proof. reflexivity. Qed.

(** The limit [ClearGrowthLimit()] installs is within the reservation. *)
Lemma ClearGrowthLimit_within_reservation (s : AllocSpace.t) :
  is_word (Capacity (AllocSpace.ClearGrowthLimit s))
  /\ Capacity (AllocSpace.ClearGrowthLimit s)
     <= NonGrowthLimitCapacity (AllocSpace.ClearGrowthLimit s).
Proof.
  split.
  - apply to_size_t_is_word.
  - apply Z.le_refl.
Qed.

(** C3: after [ClearGrowthLimit()], [Capacity()] equals
    [NonGrowthLimitCapacity()]; a second call returns the state the first
    one left. *)
Theorem ClearGrowthLimit_idempotent (s : AllocSpace.t) :
  Capacity (AllocSpace.ClearGrowthLimit s)
  = NonGrowthLimitCapacity (AllocSpace.ClearGrowthLimit s)
  /\ AllocSpace.ClearGrowthLimit (AllocSpace.ClearGrowthLimit s)
     = AllocSpace.ClearGrowthLimit s
  /\ Capacity (AllocSpace.ClearGrowthLimit (AllocSpace.ClearGrowthLimit s))
     = Capacity (AllocSpace.ClearGrowthLimit s).
Proof.
  assert (Hidem : AllocSpace.ClearGrowthLimit (AllocSpace.ClearGrowthLimit s)
                  = AllocSpace.ClearGrowthLimit s).
  { unfold AllocSpace.ClearGrowthLimit at 1. cbn [AllocSpace.super
      AllocSpace.live_bitmap_ AllocSpace.mark_bitmap_ AllocSpace.mspace_].
    rewrite NonGrowthLimitCapacity_ClearGrowthLimit. reflexivity. }
  split; [reflexivity|]. split; [exact Hidem|]. rewrite Hidem. reflexivity.
Qed.

(** C10: [ClearGrowthLimit()] leaves [Begin()], [End()], [Size()],
    [NonGrowthLimitCapacity()], the name, the retention policy and the
    live and mark bitmap pointers as they were; only [growth_limit_] is
    written. *)
Theorem ClearGrowthLimit_frame (s : AllocSpace.t) :
  Begin (AllocSpace.ClearGrowthLimit s) = Begin s
  /\ End (AllocSpace.ClearGrowthLimit s) = End s
  /\ Size (AllocSpace.ClearGrowthLimit s) = Size s
  /\ NonGrowthLimitCapacity (AllocSpace.ClearGrowthLimit s) = NonGrowthLimitCapacity s
  /\ Space.GetSpaceName (base (AllocSpace.ClearGrowthLimit s)) = Space.GetSpaceName (base s)
  /\ Space.GetName (base (AllocSpace.ClearGrowthLimit s)) = Space.GetName (base s)
  /\ GetGcRetentionPolicy (AllocSpace.ClearGrowthLimit s) = GetGcRetentionPolicy s
  /\ GetLiveBitmap (AllocSpace.ClearGrowthLimit s) = GetLiveBitmap s
  /\ GetMarkBitmap (AllocSpace.ClearGrowthLimit s) = GetMarkBitmap s
  /\ AllocSpace.GetMspace (AllocSpace.ClearGrowthLimit s) = AllocSpace.GetMspace s
  /\ AllocSpace.super (AllocSpace.ClearGrowthLimit s) = AllocSpace.super s.
Proof. repeat split. Qed.

End GrowthLimit.

(** ** Bitmaps *)

Lemma SwapBitmaps_store (s : AllocSpace.t) (bitmaps : gmap Z (gset Z)) :
  (AllocSpace.SwapBitmaps s bitmaps).2 = bitmaps.
Proof. reflexivity. Qed.

Lemma SwapBitmaps_involutive (s : AllocSpace.t) (bitmaps : gmap Z (gset Z)) :
  AllocSpace.SwapBitmaps (AllocSpace.SwapBitmaps s bitmaps).1
                         (AllocSpace.SwapBitmaps s bitmaps).2
  = (s, bitmaps).
Proof. destruct s. reflexivity. Qed.

(** C8: two [SwapBitmaps] in a row give back the space and the bitmap
    store they started from, so [GetLiveBitmap()] and [GetMarkBitmap()]
    return the objects they returned before; one [SwapBitmaps] exchanges
    the two pointers, leaves the contents of every bitmap object as they
    were, and writes no other field. *)
Theorem SwapBitmaps_roundtrip (s : AllocSpace.t) (bitmaps : gmap Z (gset Z)) :
  let once := AllocSpace.SwapBitmaps s bitmaps in
  let twice := AllocSpace.SwapBitmaps once.1 once.2 in
  (twice = (s, bitmaps)
   /\ GetLiveBitmap twice.1 = GetLiveBitmap s
   /\ GetMarkBitmap twice.1 = GetMarkBitmap s)
  /\ (GetLiveBitmap once.1 = GetMarkBitmap s
      /\ GetMarkBitmap once.1 = GetLiveBitmap s)
  /\ (forall b : Z, once.2 !! b = bitmaps !! b)
  /\ (once.2 !! GetLiveBitmap once.1 = bitmaps !! GetMarkBitmap s
      /\ once.2 !! GetMarkBitmap once.1 = bitmaps !! GetLiveBitmap s)
  /\ (AllocSpace.super once.1 = AllocSpace.super s
      /\ AllocSpace.GetMspace once.1 = AllocSpace.GetMspace s
      /\ Capacity once.1 = Capacity s).
Proof.
  intros once twice. subst twice once.
  rewrite SwapBitmaps_involutive. repeat split.
Qed.

(** ** The zygote split *)

Section Zygote.
Context `{PointerWidth}.

Lemma reservation_capacity (s : AllocSpace.t) :
  AllocSpace.reservation_ok s ->
  AllocSpace.NonGrowthLimitCapacity s
  = MemMap.End (Space.mem_map_ (AllocSpace.super s)) - Space.begin_ (AllocSpace.super s).
Proof.
  intros (Hb & H0 & Hbe & Hee & Hm). unfold AllocSpace.NonGrowthLimitCapacity.
  rewrite <- Hb. apply to_size_t_diff; lia.
Qed.

Lemma tail_capacity (parts : AllocSpace.fresh_parts) (s : AllocSpace.t) :
  AllocSpace.reservation_ok s ->
  AllocSpace.NonGrowthLimitCapacity (AllocSpace.CreateZygoteSpace parts s).2
  = MemMap.End (Space.mem_map_ (AllocSpace.super s)) - Space.end_ (AllocSpace.super s).
Proof.
  intros (Hb & H0 & Hbe & Hee & Hm).
  unfold AllocSpace.NonGrowthLimitCapacity, AllocSpace.CreateZygoteSpace. cbn.
  unfold Space.End. apply to_size_t_diff; lia.
Qed.

(** C1: [CreateZygoteSpace] on an alloc space with bounds [B], [E] and
    reservation capacity [C] leaves the calling space with [Begin() = B],
    [End() = E] and policy FullCollectOnly, and returns a space with
    [Begin() = E], [End() = E], [NonGrowthLimitCapacity() = C - (E - B)]
    and policy AlwaysCollect; no address is in both spaces, nor in the
    calling space and the returned space's reservation, and the returned
    space begins where the calling space ends. *)
Theorem CreateZygoteSpace_split (parts : AllocSpace.fresh_parts)
    (s zygote alloc_space : AllocSpace.t) :
  AllocSpace.reservation_ok s ->
  AllocSpace.CreateZygoteSpace parts s = (zygote, alloc_space) ->
  (Begin zygote = Begin s
   /\ End zygote = End s
   /\ GetGcRetentionPolicy zygote = GCRP_FULL_COLLECT)
  /\ (Begin alloc_space = End s
      /\ End alloc_space = End s
      /\ NonGrowthLimitCapacity alloc_space
         = NonGrowthLimitCapacity s - (End s - Begin s)
      /\ GetGcRetentionPolicy alloc_space = GCRP_ALWAYS_COLLECT)
  /\ (forall addr, Contains zygote addr && Contains alloc_space addr = false)
  /\ (forall addr,
        Begin zygote <= addr < End zygote ->
        ~ (Begin alloc_space <= addr
           < Begin alloc_space + NonGrowthLimitCapacity alloc_space))
  /\ End zygote = Begin alloc_space.
Proof.
  intros Hok Hsplit.
  pose proof (tail_capacity parts s Hok) as Htail.
  pose proof (reservation_capacity s Hok) as Hcap.
  rewrite Hsplit in Htail. cbn [snd] in Htail.
  unfold AllocSpace.CreateZygoteSpace in Hsplit. cbv zeta in Hsplit.
  injection Hsplit as Hz Ha.
  assert (Hzb : Begin zygote = Begin s) by (rewrite <- Hz; reflexivity).
  assert (Hze : End zygote = End s) by (rewrite <- Hz; reflexivity).
  assert (Hab : Begin alloc_space = End s) by (rewrite <- Ha; reflexivity).
  assert (Hae : End alloc_space = End s) by (rewrite <- Ha; reflexivity).
  split; [|split; [|split; [|split]]].
  - repeat split; [exact Hzb | exact Hze | rewrite <- Hz; reflexivity].
  - repeat split; [exact Hab | exact Hae | | rewrite <- Ha; reflexivity].
    unfold NonGrowthLimitCapacity. rewrite Htail, Hcap.
    unfold End, Begin, Space.End, Space.Begin. cbn [base]. lia.
  - intros addr. apply not_true_iff_false. rewrite andb_true_iff.
    unfold Contains. rewrite !Contains_spec.
    fold (Begin zygote) (End zygote) (Begin alloc_space) (End alloc_space). lia.
  - intros addr Hin. lia.
  - congruence.
Qed.

End Zygote.

Lemma CreateZygoteSpace_split_witness :
  AllocSpace.reservation_ok (H := pointer_width_32) sample_alloc_space
  /\ NonGrowthLimitCapacity (H := pointer_width_32)
       (AllocSpace.CreateZygoteSpace (H := pointer_width_32)
          sample_fresh_parts sample_alloc_space).2
     = 67108864 - (272629760 - 268435456).
Proof.
  assert (Hok : AllocSpace.reservation_ok (H := pointer_width_32) sample_alloc_space)
    by (vm_compute; intuition discriminate).
  split; [exact Hok|].
  destruct (CreateZygoteSpace_split (H := pointer_width_32) sample_fresh_parts
              sample_alloc_space _ _ Hok eq_refl)
    as (_ & (_ & _ & Hcap & _) & _).
  exact Hcap.
Defined.

(** ** Allocation under the footprint limit *)

Lemma bump_malloc_cases (m : Mspace.bump) (n : Z) :
  (Mspace.bump_used m + n <= Mspace.bump_limit m
   /\ Mspace.malloc m n
      = (Some (Mspace.bump_base m + Mspace.bump_used m),
         Mspace.mk_bump (Mspace.bump_base m) (Mspace.bump_used m + n) (Mspace.bump_limit m)))
  \/ (Mspace.bump_limit m < Mspace.bump_used m + n /\ Mspace.malloc m n = (None, m)).
Proof.
  cbn. destruct (Z.leb_spec (Mspace.bump_used m + n) (Mspace.bump_limit m));
    [left | right]; split; (assumption || reflexivity).
Qed.

Lemma bump_laws : Mspace.Laws Mspace.bump.
Proof.
  split; try reflexivity; intros m n;
    destruct (bump_malloc_cases m n) as [[Hfit ->] | [Hover ->]];
    cbn [fst snd Mspace.footprint Mspace.footprint_limit Mspace.demand
         Mspace.bump_ops Mspace.bump_used Mspace.bump_limit];
    try reflexivity; try congruence.
  - split; [discriminate | lia].
  - split; [intros _; exact Hover | reflexivity].
Qed.

Section Allocation.
Context {M : Type} `{Mspace.Ops M}.

Lemma AllocWithoutGrowth_result (n : Z) (s : AllocSpace.t) (m : M) :
  (AllocSpace.AllocWithoutGrowth n s m).1.1 = (Mspace.malloc m n).1
  /\ (AllocSpace.AllocWithoutGrowth n s m).2 = (Mspace.malloc m n).2.
Proof.
  unfold AllocSpace.AllocWithoutGrowth.
  destruct (Mspace.malloc m n) as [result m']. split; reflexivity.
Qed.

Lemma AllocWithoutGrowth_space (n : Z) (s : AllocSpace.t) (m : M) :
  (AllocSpace.AllocWithoutGrowth n s m).1.2
  = AllocSpace.with_super
      (Space.set_end
         (Space.end_ (AllocSpace.super s)
          + (Mspace.footprint (Mspace.malloc m n).2 - Mspace.footprint m))
         (AllocSpace.super s)) s.
Proof.
  unfold AllocSpace.AllocWithoutGrowth.
  destruct (Mspace.malloc m n) as [result m']. reflexivity.
Qed.

(** C4: [AllocWithoutGrowth] leaves [Capacity()] and the footprint limit as
    they were, and returns null when the request would take the allocator
    past its footprint limit, without moving [End()].  [AllocWithGrowth]
    sets the footprint limit to [growthLimit] (so never beyond it) and
    delegates; it leaves [Capacity()] as it was, a request it serves stays
    within [growthLimit], and it returns null only if the request does not
    fit under [growthLimit]. *)
Theorem alloc_respects_limits (n : Z) (s : AllocSpace.t) (m : M) :
  Mspace.Laws M ->
  (Capacity (AllocSpace.AllocWithoutGrowth n s m).1.2 = Capacity s
   /\ Mspace.footprint_limit (AllocSpace.AllocWithoutGrowth n s m).2
      = Mspace.footprint_limit m
   /\ (Mspace.footprint_limit m < Mspace.demand m n ->
       (AllocSpace.AllocWithoutGrowth n s m).1.1 = None
       /\ End (AllocSpace.AllocWithoutGrowth n s m).1.2 = End s))
  /\ (AllocSpace.AllocWithGrowth n s m
      = AllocSpace.AllocWithoutGrowth n s
          (Mspace.set_footprint_limit m (AllocSpace.growth_limit_ s))
      /\ Mspace.footprint_limit (Mspace.set_footprint_limit m (AllocSpace.growth_limit_ s))
         <= AllocSpace.growth_limit_ s
      /\ Mspace.footprint_limit (AllocSpace.AllocWithGrowth n s m).2
         = AllocSpace.growth_limit_ s
      /\ Capacity (AllocSpace.AllocWithGrowth n s m).1.2 = Capacity s
      /\ ((AllocSpace.AllocWithGrowth n s m).1.1 <> None ->
          Mspace.footprint (AllocSpace.AllocWithGrowth n s m).2
          <= AllocSpace.growth_limit_ s)
      /\ ((AllocSpace.AllocWithGrowth n s m).1.1 = None ->
          AllocSpace.growth_limit_ s < Mspace.demand m n)).
Proof.
  intros L. split.
  - destruct (AllocWithoutGrowth_result n s m) as [Hr Hm].
    rewrite AllocWithoutGrowth_space, Hr, Hm.
    split; [reflexivity|]. split; [apply (Mspace.limit_after_malloc M L)|].
    intros Hfull. apply (Mspace.malloc_null M L) in Hfull.
    split; [exact Hfull|].
    apply (Mspace.malloc_null_no_growth M L) in Hfull.
    unfold End, Space.End. cbn. rewrite Hfull. lia.
  - unfold AllocSpace.AllocWithGrowth, AllocSpace.Capacity.
    set (m1 := Mspace.set_footprint_limit m (AllocSpace.growth_limit_ s)).
    destruct (AllocWithoutGrowth_result n s m1) as [Hr Hm].
    rewrite AllocWithoutGrowth_space, Hr, Hm.
    assert (Hl : Mspace.footprint_limit m1 = AllocSpace.growth_limit_ s)
      by apply (Mspace.limit_after_set M L).
    assert (Hd : Mspace.demand m1 n = Mspace.demand m n)
      by apply (Mspace.demand_after_set M L).
    split; [reflexivity|]. split; [lia|].
    split; [rewrite (Mspace.limit_after_malloc M L); exact Hl|].
    split; [reflexivity|]. split.
    + intros Hserved. rewrite (Mspace.malloc_footprint M L) by exact Hserved.
      destruct (Z.le_gt_cases (Mspace.demand m1 n) (Mspace.footprint_limit m1))
        as [Hfit | Hover]; [lia|].
      apply (Mspace.malloc_null M L) in Hover. contradiction.
    + intros Hnull. apply (Mspace.malloc_null M L) in Hnull. lia.
Qed.

End Allocation.

Lemma alloc_respects_limits_witness :
  (AllocSpace.AllocWithoutGrowth 4096 sample_alloc_space sample_mspace).1.1 = None
  /\ (AllocSpace.AllocWithGrowth 4096 sample_alloc_space sample_mspace).1.1
     = Some 272629760
  /\ Mspace.footprint_limit
       (AllocSpace.AllocWithGrowth 4096 sample_alloc_space sample_mspace).2
     = 16777216
  /\ ((AllocSpace.AllocWithGrowth 16777216 sample_alloc_space sample_mspace).1.1 = None
      -> 16777216 < 4194304 + 16777216).
Proof.
  destruct (alloc_respects_limits 4096 sample_alloc_space sample_mspace bump_laws)
    as ((_ & _ & Hnull) & (_ & _ & Hlimit & _)).
  destruct (alloc_respects_limits 16777216 sample_alloc_space sample_mspace bump_laws)
    as (_ & (_ & _ & _ & _ & _ & Hexhausted)).
  split; [apply Hnull; reflexivity|].
  split; [reflexivity|]. split; [exact Hlimit | exact Hexhausted].
Defined.

(** ** The sample space, step by step *)

Section Scenario.
Let w32 : PointerWidth := pointer_width_32.
Existing Instance w32.

(** 4 MiB in use, 16 MiB allowed, 64 MiB reserved. *)
Example sample_sizes :
  Size sample_alloc_space = 4194304
  /\ Capacity sample_alloc_space = 16777216
  /\ NonGrowthLimitCapacity sample_alloc_space = 67108864.
Proof. repeat split. Qed.

Example sample_after_ClearGrowthLimit :
  Capacity (AllocSpace.ClearGrowthLimit sample_alloc_space) = 67108864
  /\ Size (AllocSpace.ClearGrowthLimit sample_alloc_space) = 4194304.
Proof. repeat split. Qed.

(** With the footprint limit at the 4 MiB in use, a page is refused without
    growth and granted with growth, which moves [End()] by the page. *)
Example sample_allocation :
  (AllocSpace.AllocWithoutGrowth 4096 sample_alloc_space sample_mspace).1
  = (None, sample_alloc_space)
  /\ (AllocSpace.AllocWithGrowth 4096 sample_alloc_space sample_mspace).1.1
     = Some 272629760
  /\ End (AllocSpace.AllocWithGrowth 4096 sample_alloc_space sample_mspace).1.2
     = 272633856
  /\ Mspace.footprint (AllocSpace.AllocWithGrowth 4096 sample_alloc_space sample_mspace).2
     = 4198400.
Proof. repeat split. Qed.

(** A request for the whole growth limit on top of the 4 MiB in use is
    refused even with growth. *)
Example sample_exhausted :
  (AllocSpace.AllocWithGrowth 16777216 sample_alloc_space sample_mspace).1.1 = None.
Proof. reflexivity. Qed.

Example sample_zygote_split :
  let (zygote, alloc_space) :=
    AllocSpace.CreateZygoteSpace sample_fresh_parts sample_alloc_space in
  (Begin zygote, End zygote, IsZygoteSpace zygote) = (268435456, 272629760, true)
  /\ (Begin alloc_space, End alloc_space, IsZygoteSpace alloc_space)
     = (272629760, 272629760, false)
  /\ NonGrowthLimitCapacity alloc_space = 62914560.
Proof. repeat split. Qed.

Example sample_swap :
  let once := (AllocSpace.SwapBitmaps sample_alloc_space ∅).1 in
  (GetLiveBitmap once, GetMarkBitmap once) = (8192, 4096).
Proof. reflexivity. Qed.

Example sample_image_kind :
  (IsImageSpace sample_image_space, IsAllocSpace sample_image_space,
   IsZygoteSpace sample_image_space, Capacity sample_image_space)
  = (true, false, false, 1048576).
Proof. reflexivity. Qed.

End Scenario.

(** * Further properties of the inline members *)

(** ** The kind tests across the hierarchy *)

(** X1: through a [Space*], no object answers true to both [IsAllocSpace()]
    and [IsImageSpace()], nor to both [IsZygoteSpace()] and
    [IsImageSpace()], and every object that is a zygote space is an alloc
    space. *)
Theorem kind_tests_exclusive (s : SpaceObj) :
  IsAllocSpace s && IsImageSpace s = false
  /\ IsZygoteSpace s && IsImageSpace s = false
  /\ IsZygoteSpace s && negb (IsAllocSpace s) = false.
Proof.
  destruct s as [a | i]; cbn; [|repeat split].
  unfold AllocSpace.IsAllocSpace, AllocSpace.IsZygoteSpace, AllocSpace.IsImageSpace.
  destruct (Space.gc_retention_policy_ (AllocSpace.super a)); repeat split.
Qed.

(** X2: the three kind tests do not cover every object: [IsAllocSpace()]
    and [IsImageSpace()] are both false exactly on an [AllocSpace] whose
    policy is [GCRP_NEVER_COLLECT] (and then [IsZygoteSpace()] is false
    too). *)
Theorem no_kind_iff_never_collected (s : SpaceObj) :
  (IsAllocSpace s = false /\ IsImageSpace s = false
   <-> exists a : AllocSpace.t,
         s = OfAllocSpace a /\ GetGcRetentionPolicy a = GCRP_NEVER_COLLECT)
  /\ (IsAllocSpace s || IsImageSpace s = false -> IsZygoteSpace s = false).
Proof.
  destruct s as [a | i]; cbn.
  - unfold AllocSpace.IsAllocSpace, AllocSpace.IsZygoteSpace, AllocSpace.IsImageSpace,
      GetGcRetentionPolicy, Space.GetGcRetentionPolicy. cbn.
    split.
    + split.
      * intros [Hn _]. exists a. split; [reflexivity|].
        apply negb_false_iff, bool_decide_eq_true in Hn. exact Hn.
      * intros (a' & [= <-] & Hp). rewrite Hp. split; reflexivity.
    + destruct (Space.gc_retention_policy_ (AllocSpace.super a)); cbn;
        intros; (reflexivity || discriminate).
  - split; [|discriminate]. split.
    + intros [_ Hi]. discriminate.
    + intros (a & Ha & _). discriminate.
Qed.

Lemma no_kind_iff_never_collected_witness :
  IsAllocSpace sample_never_collected || IsImageSpace sample_never_collected = false
  /\ IsZygoteSpace sample_never_collected = false.
Proof.
  split; [reflexivity|].
  apply (no_kind_iff_never_collected sample_never_collected). reflexivity.
Defined.

(** ** The down-casts *)

Lemma IsAllocSpace_by_policy (a : AllocSpace.t) :
  AllocSpace.IsAllocSpace a
  = match Space.gc_retention_policy_ (AllocSpace.super a) with
    | GCRP_NEVER_COLLECT => false
    | _ => true
    end.
Proof.
  unfold AllocSpace.IsAllocSpace.
  destruct (Space.gc_retention_policy_ (AllocSpace.super a)); reflexivity.
Qed.

(** X3: [AsAllocSpace()].  With the checks enabled it returns the object
    exactly when the object is an [AllocSpace] whose policy is not
    [GCRP_NEVER_COLLECT], stops at the check exactly when [IsAllocSpace()]
    is false, and never reaches a cast of an image space.  Without the
    checks it returns every [AllocSpace], whatever its policy, and casts
    an image space. *)
Theorem AsAllocSpace_outcomes (s : SpaceObj) (a : AllocSpace.t) :
  (AsAllocSpace true s = Returned a
   <-> s = OfAllocSpace a /\ GetGcRetentionPolicy s <> GCRP_NEVER_COLLECT)
  /\ (AsAllocSpace true s = CheckFailed <-> IsAllocSpace s = false)
  /\ AsAllocSpace true s <> BadCast
  /\ (AsAllocSpace false s = Returned a <-> s = OfAllocSpace a)
  /\ (AsAllocSpace false s = BadCast <-> IsImageSpace s = true)
  /\ AsAllocSpace false s <> CheckFailed.
Proof.
  destruct s as [a0 | i]; unfold AsAllocSpace; cbn.
  - rewrite IsAllocSpace_by_policy.
    unfold AllocSpace.IsImageSpace, GetGcRetentionPolicy, Space.GetGcRetentionPolicy.
    cbn [base].
    destruct (Space.gc_retention_policy_ (AllocSpace.super a0)); cbn;
      repeat split; try discriminate; try congruence;
      try (intros [[= ->] ?]; congruence).
  - repeat split; try discriminate; try congruence;
      intros [? ?]; discriminate.
Qed.

(** X4: [AsImageSpace()].  In either build it returns the object exactly
    when the object is an [ImageSpace]; on an [AllocSpace] it stops at the
    check when the checks are enabled and casts the wrong class when they
    are not. *)
Theorem AsImageSpace_outcomes (kEnableDChecks : bool) (s : SpaceObj) (i : ImageSpace.t) :
  (AsImageSpace kEnableDChecks s = Returned i <-> s = OfImageSpace i)
  /\ (AsImageSpace true s = CheckFailed <-> IsImageSpace s = false)
  /\ AsImageSpace true s <> BadCast
  /\ (AsImageSpace false s = BadCast <-> IsImageSpace s = false)
  /\ (IsImageSpace s = true ->
      exists i', s = OfImageSpace i' /\ AsImageSpace kEnableDChecks s = Returned i').
Proof.
  destruct s as [a | i0]; destruct kEnableDChecks; unfold AsImageSpace; cbn;
    repeat split; try discriminate; try congruence;
    try (intros _; exists i0; split; reflexivity).
Qed.

Lemma AsImageSpace_outcomes_witness :
  AsImageSpace true sample_image_space = Returned sample_image_space
  /\ AsImageSpace false sample_image_space = Returned sample_image_space.
Proof.
  split.
  - apply (AsImageSpace_outcomes true sample_image_space sample_image_space). reflexivity.
  - apply (AsImageSpace_outcomes false sample_image_space sample_image_space). reflexivity.
Defined.

(** ** Reading and writing the retention policy *)

Section Policy.
Context `{PointerWidth}.

(** X5: on a space of either kind, [GetGcRetentionPolicy()] returns what
    [SetGcRetentionPolicy] stored last, storing the current policy changes
    nothing, and a store changes neither the bounds, the size, the two
    capacities, the name, the bitmaps nor the answer of [IsImageSpace()]
    or [Contains]. *)
Theorem retention_policy_store (s : SpaceObj) (p q : GcRetentionPolicy) (addr : Z) :
  (GetGcRetentionPolicy (SetGcRetentionPolicy p s) = p
   /\ SetGcRetentionPolicy (GetGcRetentionPolicy s) s = s
   /\ SetGcRetentionPolicy p (SetGcRetentionPolicy q s) = SetGcRetentionPolicy p s)
  /\ (Begin (SetGcRetentionPolicy p s) = Begin s
      /\ End (SetGcRetentionPolicy p s) = End s
      /\ Size (SetGcRetentionPolicy p s) = Size s
      /\ Contains (SetGcRetentionPolicy p s) addr = Contains s addr)
  /\ (Capacity (SetGcRetentionPolicy p s) = Capacity s
      /\ NonGrowthLimitCapacity (SetGcRetentionPolicy p s) = NonGrowthLimitCapacity s)
  /\ (Space.GetName (base (SetGcRetentionPolicy p s)) = Space.GetName (base s)
      /\ GetLiveBitmap (SetGcRetentionPolicy p s) = GetLiveBitmap s
      /\ GetMarkBitmap (SetGcRetentionPolicy p s) = GetMarkBitmap s
      /\ IsImageSpace (SetGcRetentionPolicy p s) = IsImageSpace s).
Proof.
  destruct s as [[[] ? ? ? ?] | [[] ?]]; repeat split.
Qed.

(** X6: [ClearGrowthLimit()] and [SetGcRetentionPolicy] can be called in
    either order with the same result, and [ClearGrowthLimit()] changes
    none of the three kind tests. *)
Theorem ClearGrowthLimit_SetGcRetentionPolicy (s : AllocSpace.t) (p : GcRetentionPolicy) :
  AllocSpace.ClearGrowthLimit (AllocSpace.SetGcRetentionPolicy p s)
  = AllocSpace.SetGcRetentionPolicy p (AllocSpace.ClearGrowthLimit s)
  /\ IsAllocSpace (AllocSpace.ClearGrowthLimit s) = IsAllocSpace s
  /\ IsZygoteSpace (AllocSpace.ClearGrowthLimit s) = IsZygoteSpace s
  /\ IsImageSpace (AllocSpace.ClearGrowthLimit s) = IsImageSpace s
  /\ Capacity (AllocSpace.ClearGrowthLimit (AllocSpace.SetGcRetentionPolicy p s))
     = NonGrowthLimitCapacity s.
Proof. repeat split. Qed.

End Policy.

(** ** Size and containment at the edges *)

Section Edges.
Context `{PointerWidth}.

Lemma to_size_t_negative z :
  - size_t_modulus < z < 0 -> to_size_t z = z + size_t_modulus.
Proof.
  intros Hz. unfold to_size_t.
  pose proof size_t_modulus_pos as Hpos.
  rewrite <- (Z.mod_add z 1 size_t_modulus) by lia.
  rewrite Z.mul_1_l. apply Z.mod_small. lia.
Qed.

(** X7: when both bounds are addresses, in whatever order, [Size()] fits a
    [size_t], is 0 exactly when [Begin() == End()], and for an inverted
    space ([End() < Begin()]) it wraps to [2^w - (Begin() - End())]. *)
Theorem Size_zero_iff_empty (s : SpaceObj) :
  is_word (Begin s) -> is_word (End s) ->
  is_word (Size s)
  /\ (Size s = 0 <-> Begin s = End s)
  /\ (End s < Begin s -> Size s = size_t_modulus - (Begin s - End s)).
Proof.
  intros Hb He. rewrite Size_unfold. unfold is_word in Hb, He.
  split; [apply to_size_t_is_word|].
  destruct (Z_le_gt_dec (Begin s) (End s)) as [Hle | Hgt].
  - rewrite to_size_t_diff by lia. split; [lia | lia].
  - rewrite to_size_t_negative by lia. split; [lia | lia].
Qed.

(** X8: on a space whose bounds are in order, an address is contained
    exactly when it is not below [Begin()] and its offset from [Begin()]
    is below [Size()]. *)
Theorem Contains_iff_offset_below_Size (s : SpaceObj) (addr : Z) :
  Space.bounds_ok (base s) ->
  (Contains s addr = true <-> Begin s <= addr /\ addr - Begin s < Size s).
Proof.
  intros ((Hb0 & Hb1) & (He0 & He1) & Hle).
  rewrite Size_unfold. unfold Contains. rewrite Contains_spec.
  fold (Begin s) (End s).
  unfold Begin, End, Space.Begin, Space.End.
  rewrite to_size_t_diff by assumption. lia.
Qed.

End Edges.

Lemma Size_zero_iff_empty_witness :
  Size (H := pointer_width_32) sample_empty_space = 0
  /\ Size (H := pointer_width_32)
       (set_end 268435455 sample_alloc_space) = 4294967295.
Proof.
  split.
  - apply (Size_zero_iff_empty (H := pointer_width_32) sample_empty_space);
      [vm_compute; intuition discriminate .. | reflexivity].
  - apply (Size_zero_iff_empty (H := pointer_width_32)
             (set_end 268435455 sample_alloc_space));
      [vm_compute; intuition discriminate .. | reflexivity].
Defined.

Lemma Contains_iff_offset_below_Size_witness :
  Space.bounds_ok (H := pointer_width_32) (base sample_alloc_space)
  /\ Contains sample_alloc_space 272629759 = true.
Proof.
  assert (Hok : Space.bounds_ok (H := pointer_width_32) (base sample_alloc_space))
    by (vm_compute; intuition discriminate).
  split; [exact Hok|].
  apply (Contains_iff_offset_below_Size (H := pointer_width_32)
           sample_alloc_space 272629759 Hok).
  split; [vm_compute; discriminate | reflexivity].
Defined.

(** X9: a space of either kind whose [End()] is not above its [Begin()]
    (nothing allocated yet, or inverted bounds) contains no address. *)
Theorem Contains_nothing_when_empty (s : SpaceObj) (addr : Z) :
  End s <= Begin s -> Contains s addr = false.
Proof.
  intros Hempty. apply not_true_iff_false. unfold Contains.
  rewrite Contains_spec. fold (Begin s) (End s). lia.
Qed.

Lemma Contains_nothing_when_empty_witness :
  End sample_empty_space <= Begin sample_empty_space
  /\ Contains sample_empty_space 272629760 = false.
Proof.
  assert (Hempty : End sample_empty_space <= Begin sample_empty_space)
    by (vm_compute; discriminate).
  split; [exact Hempty|].
  exact (Contains_nothing_when_empty sample_empty_space 272629760 Hempty).
Defined.

(** X10: when one space ends at or before the place where another
    begins, no address is contained in both, whatever the kinds of the two
    spaces. *)
Theorem Contains_at_most_one (s1 s2 : SpaceObj) (addr : Z) :
  End s1 <= Begin s2 ->
  Contains s1 addr && Contains s2 addr = false.
Proof.
  intros Hbefore. apply not_true_iff_false. rewrite andb_true_iff.
  unfold Contains. rewrite !Contains_spec.
  fold (Begin s1) (End s1) (Begin s2) (End s2). lia.
Qed.

Lemma Contains_at_most_one_witness :
  End sample_image_space <= Begin sample_alloc_space
  /\ Contains sample_image_space 268435456 && Contains sample_alloc_space 268435456 = false.
Proof.
  assert (Hbefore : End sample_image_space <= Begin sample_alloc_space)
    by (vm_compute; discriminate).
  split; [exact Hbefore|].
  exact (Contains_at_most_one sample_image_space sample_alloc_space 268435456 Hbefore).
Defined.

(** ** The cleared capacity and the space in use *)

Section Cleared.
Context `{PointerWidth}.

(** X11: on an alloc space whose reservation is in order, after
    [ClearGrowthLimit()] the capacity reaches exactly to the end of the
    map, [Size()] is within the capacity, and every contained address lies
    below [Begin() + Capacity()]. *)
Theorem cleared_capacity_covers_space (s : AllocSpace.t) (addr : Z) :
  AllocSpace.reservation_ok s ->
  Begin s + Capacity (AllocSpace.ClearGrowthLimit s)
  = MemMap.End (Space.mem_map_ (AllocSpace.super s))
  /\ Size (AllocSpace.ClearGrowthLimit s) <= Capacity (AllocSpace.ClearGrowthLimit s)
  /\ (Contains (AllocSpace.ClearGrowthLimit s) addr = true ->
      addr < Begin s + Capacity (AllocSpace.ClearGrowthLimit s)).
Proof.
  intros Hok. pose proof (reservation_capacity s Hok) as Hcap.
  destruct Hok as (Hb & H0 & Hbe & Hee & Hm).
  assert (Hc : Capacity (AllocSpace.ClearGrowthLimit s)
               = MemMap.End (Space.mem_map_ (AllocSpace.super s))
                 - Space.begin_ (AllocSpace.super s)) by exact Hcap.
  assert (Hs : Size (AllocSpace.ClearGrowthLimit s)
               = Space.end_ (AllocSpace.super s) - Space.begin_ (AllocSpace.super s)).
  { rewrite Size_unfold. apply to_size_t_diff; [assumption | assumption | lia]. }
  rewrite Hc, Hs. unfold Begin, Space.Begin. cbn [base].
  split; [lia|]. split; [lia|].
  unfold Contains. rewrite Contains_spec. cbn. unfold Space.End. lia.
Qed.

End Cleared.

Lemma cleared_capacity_covers_space_witness :
  AllocSpace.reservation_ok (H := pointer_width_32) sample_alloc_space
  /\ Size (H := pointer_width_32)
       (AllocSpace.ClearGrowthLimit (H := pointer_width_32) sample_alloc_space)
     <= Capacity (AllocSpace.ClearGrowthLimit (H := pointer_width_32) sample_alloc_space).
Proof.
  assert (Hok : AllocSpace.reservation_ok (H := pointer_width_32) sample_alloc_space)
    by (vm_compute; intuition discriminate).
  split; [exact Hok|].
  destruct (cleared_capacity_covers_space (H := pointer_width_32)
              sample_alloc_space 0 Hok) as (_ & Hsize & _).
  exact Hsize.
Defined.
